(** * ffpython: the working-set query of [memory_usage.cpp]

    A shallow embedding of [get_memory_usage], the function the application
    loads through ctypes to read the working-set size of a process.

    The function is three Win32 calls around a branch, so the embedding is a
    program over the Win32 calls it makes ([Prog]), run against an arbitrary
    operating system ([Win32API]) while the calls and their answers are
    logged ([run]).  Statements about which calls happen, in which order and
    how often are statements about that log; statements about the returned
    [int] are statements about the value [run] yields. *)

From Stdlib Require Import ZArith List Lia Bool.
Import ListNotations.
Local Open Scope Z_scope.

(** ** Windows types and constants

    These come from [windows.h] and [psapi.h], which the source includes.
    Integers are [Z]; the width of each type is written where it matters. *)

Definition DWORD := Z.   (* unsigned, 32 bits *)
Definition BOOL := Z.    (* an int: zero is false, anything else true *)
Definition HANDLE := Z.  (* a pointer-sized value *)
Definition SIZE_T := Z.  (* unsigned, pointer-sized *)
Definition int := Z.     (* signed, 32 bits *)

Definition NULL : HANDLE := 0.
Definition FALSE : BOOL := 0.
Definition TRUE : BOOL := 1.
Definition PROCESS_QUERY_INFORMATION : DWORD := 0x0400.
Definition PROCESS_VM_READ : DWORD := 0x0010.

(** The two targets a Windows DLL is built for; they differ in the width of
    [SIZE_T], hence in [sizeof(PROCESS_MEMORY_COUNTERS)]. *)
Inductive Target : Type := Win32 | Win64.

Definition SIZE_T_bits (t : Target) : Z :=
  match t with Win32 => 32 | Win64 => 64 end.

Definition SIZE_T_range (t : Target) (z : SIZE_T) : Prop :=
  0 <= z < 2 ^ SIZE_T_bits t.

Definition int_range (z : int) : Prop := - 2 ^ 31 <= z < 2 ^ 31.

(** [PROCESS_MEMORY_COUNTERS] of [psapi.h]: two [DWORD]s and eight
    [SIZE_T]s. *)
Record PROCESS_MEMORY_COUNTERS : Type := {
  cb : DWORD;
  PageFaultCount : DWORD;
  PeakWorkingSetSize : SIZE_T;
  WorkingSetSize : SIZE_T;
  QuotaPeakPagedPoolUsage : SIZE_T;
  QuotaPagedPoolUsage : SIZE_T;
  QuotaPeakNonPagedPoolUsage : SIZE_T;
  QuotaNonPagedPoolUsage : SIZE_T;
  PagefileUsage : SIZE_T;
  PeakPagefileUsage : SIZE_T
}.

Definition sizeof_PROCESS_MEMORY_COUNTERS (t : Target) : DWORD :=
  4 + 4 + 8 * (SIZE_T_bits t / 8).

(** The conversion the assignment [memory_usage = pmc.WorkingSetSize]
    performs: an unsigned [SIZE_T] stored in an [int] keeps its low 32 bits,
    read in two's complement (the rule of C++20, and what MSVC, GCC and
    Clang do under the earlier standards). *)
Definition int_of_SIZE_T (z : SIZE_T) : int :=
  let low := Z.land z (Z.ones 32) in
  if Z.testbit low 31 then low - 2 ^ 32 else low.

(** ** Programs over the Win32 calls *)

(** The calls [get_memory_usage] makes, indexed by what each one hands back.
    [GetProcessMemoryInfo] writes through its [&pmc] argument: its answer is
    the [BOOL] it returns together with the structure as the call left it. *)
Inductive Win32Call : Type -> Type :=
| OpenProcess (dwDesiredAccess : DWORD) (bInheritHandle : BOOL)
              (dwProcessId : DWORD) : Win32Call HANDLE
| GetProcessMemoryInfo (Process : HANDLE) (size : DWORD)
    : Win32Call (BOOL * PROCESS_MEMORY_COUNTERS)
| CloseHandle (hObject : HANDLE) : Win32Call BOOL.

Inductive Prog (A : Type) : Type :=
| Ret (a : A)
| Call {X : Type} (c : Win32Call X) (k : X -> Prog A).

Arguments Ret {A} a.
Arguments Call {A X} c k.

Fixpoint bind {A B : Type} (p : Prog A) (f : A -> Prog B) : Prog B :=
  match p with
  | Ret a => f a
  | Call c k => Call c (fun x => bind (k x) f)
  end.

Definition call {X : Type} (c : Win32Call X) : Prog X := Call c Ret.

Declare Scope prog_scope.
Delimit Scope prog_scope with prog.
Notation "x <- c ;; k" := (bind c (fun x => k))
  (at level 61, c at next level, right associativity) : prog_scope.
Notation "' pat <- c ;; k" := (bind c (fun x => match x with pat => k end))
  (at level 61, pat pattern, c at next level, right associativity) : prog_scope.
Local Open Scope prog_scope.

(** ** The source function *)

Section Source.

Variable target : Target.

(** [int get_memory_usage(DWORD pid)] *)
Definition get_memory_usage (pid : DWORD) : Prog int :=
  process <- call (OpenProcess
                     (Z.lor PROCESS_QUERY_INFORMATION PROCESS_VM_READ)
                     FALSE pid) ;;
  if process =? NULL then
    Ret (-1)
  else
    '(ok, pmc) <- call (GetProcessMemoryInfo
                          process (sizeof_PROCESS_MEMORY_COUNTERS target)) ;;
    let memory_usage :=
      if negb (ok =? 0) then int_of_SIZE_T (WorkingSetSize pmc) else -1 in
    _ <- call (CloseHandle process) ;;
    Ret memory_usage.

(** A caller that invokes the function once per identifier, in order. *)
Fixpoint invoke_each (pids : list DWORD) : Prog (list int) :=
  match pids with
  | [] => Ret []
  | pid :: rest =>
      r <- get_memory_usage pid ;;
      rs <- invoke_each rest ;;
      Ret (r :: rs)
  end.

End Source.

(** ** Running a program against an operating system *)

(** What an operating system is, as far as this code can tell: an answer to
    each call, and a next state of the world. *)
Class Win32API (W : Type) : Type := {
  os_OpenProcess : DWORD -> BOOL -> DWORD -> W -> HANDLE * W;
  os_GetProcessMemoryInfo :
    HANDLE -> DWORD -> W -> (BOOL * PROCESS_MEMORY_COUNTERS) * W;
  os_CloseHandle : HANDLE -> W -> BOOL * W
}.

Definition perform {W : Type} `{Win32API W} {X : Type} (c : Win32Call X)
  : W -> X * W :=
  match c in Win32Call T return W -> T * W with
  | OpenProcess access inherit pid => os_OpenProcess access inherit pid
  | GetProcessMemoryInfo h size => os_GetProcessMemoryInfo h size
  | CloseHandle h => os_CloseHandle h
  end.

(** One entry of the log: a call with its arguments and its answer. *)
Inductive Event : Type :=
| EvOpenProcess (dwDesiredAccess : DWORD) (bInheritHandle : BOOL)
                (dwProcessId : DWORD) (ret : HANDLE)
| EvGetProcessMemoryInfo (Process : HANDLE) (size : DWORD)
                         (ret : BOOL) (pmc : PROCESS_MEMORY_COUNTERS)
| EvCloseHandle (hObject : HANDLE) (ret : BOOL).

Definition log {X : Type} (c : Win32Call X) : X -> Event :=
  match c in Win32Call T return T -> Event with
  | OpenProcess access inherit pid => EvOpenProcess access inherit pid
  | GetProcessMemoryInfo h size =>
      fun r => EvGetProcessMemoryInfo h size (fst r) (snd r)
  | CloseHandle h => EvCloseHandle h
  end.

Record Outcome (W A : Type) : Type := {
  result : A;
  world : W;
  trace : list Event
}.
Arguments result {W A} _.
Arguments world {W A} _.
Arguments trace {W A} _.

Fixpoint run {W : Type} `{Win32API W} {A : Type} (p : Prog A) (w : W)
  : Outcome W A :=
  match p with
  | Ret a => {| result := a; world := w; trace := [] |}
  | Call c k =>
      let (x, w') := perform c w in
      let o := run (k x) w' in
      {| result := result o; world := world o; trace := log c x :: trace o |}
  end.

(** ** Reading the log *)

Definition calls_OpenProcess (tr : list Event) : nat :=
  length (filter (fun e => match e with EvOpenProcess _ _ _ _ => true
                                      | _ => false end) tr).

Definition calls_GetProcessMemoryInfo (tr : list Event) : nat :=
  length (filter (fun e => match e with EvGetProcessMemoryInfo _ _ _ _ => true
                                      | _ => false end) tr).

Definition calls_CloseHandle (tr : list Event) : nat :=
  length (filter (fun e => match e with EvCloseHandle _ _ => true
                                      | _ => false end) tr).

(** Handles the log shows as granted (a non-[NULL] answer of [OpenProcess])
    and not yet passed to [CloseHandle], starting from the handles [held]
    before the log begins.  A handle granted twice is held twice. *)
Fixpoint release (h : HANDLE) (held : list HANDLE) : list HANDLE :=
  match held with
  | [] => []
  | h' :: rest => if h' =? h then rest else h' :: release h rest
  end.

Fixpoint outstanding (tr : list Event) (held : list HANDLE) : list HANDLE :=
  match tr with
  | [] => held
  | EvOpenProcess _ _ _ h :: tr' =>
      outstanding tr' (if h =? NULL then held else h :: held)
  | EvGetProcessMemoryInfo _ _ _ _ :: tr' => outstanding tr' held
  | EvCloseHandle h _ :: tr' => outstanding tr' (release h held)
  end.

(** Number of handles the log shows as granted. *)
Definition handles_granted (tr : list Event) : nat :=
  length (filter (fun e => match e with
                           | EvOpenProcess _ _ _ h => negb (h =? NULL)
                           | _ => false end) tr).

(** Whether [h] is among the handles [held]. *)
Definition holds (h : HANDLE) (held : list HANDLE) : bool :=
  existsb (Z.eqb h) held.

(** Whether the log uses handles properly, starting from the handles [held]:
    [GetProcessMemoryInfo] and [CloseHandle] are only ever given a handle
    that is not [NULL], was granted, and has not been closed since. *)
Fixpoint disciplined (tr : list Event) (held : list HANDLE) : bool :=
  match tr with
  | [] => true
  | EvOpenProcess _ _ _ h :: tr' =>
      disciplined tr' (if h =? NULL then held else h :: held)
  | EvGetProcessMemoryInfo h _ _ _ :: tr' =>
      negb (h =? NULL) && holds h held && disciplined tr' held
  | EvCloseHandle h _ :: tr' =>
      negb (h =? NULL) && holds h held && disciplined tr' (release h held)
  end.

(** The log cut into calls of the function: a piece starts at each
    [OpenProcess] and runs up to the next one.  [cut] returns the entries
    before the first [OpenProcess] and then the pieces. *)
Definition is_OpenProcess (e : Event) : bool :=
  match e with EvOpenProcess _ _ _ _ => true | _ => false end.

Fixpoint cut (tr : list Event) : list Event * list (list Event) :=
  match tr with
  | [] => ([], [])
  | e :: tr' =>
      let (pending, pieces) := cut tr' in
      if is_OpenProcess e then ([], (e :: pending) :: pieces)
      else (e :: pending, pieces)
  end.

Definition per_call (tr : list Event) : list (list Event) := snd (cut tr).

(** What the operating system answered, without what it was asked. *)
Inductive Response : Type :=
| RHandle (h : HANDLE)
| RCounters (ok : BOOL) (pmc : PROCESS_MEMORY_COUNTERS)
| RStatus (ok : BOOL).

Definition response (e : Event) : Response :=
  match e with
  | EvOpenProcess _ _ _ h => RHandle h
  | EvGetProcessMemoryInfo _ _ ok pmc => RCounters ok pmc
  | EvCloseHandle _ ok => RStatus ok
  end.

(** ** A scripted operating system

    An operating system that gives the same three answers whatever it is
    asked; the world is the script and never changes.  It serves to run the
    function on concrete answers. *)
Record Script : Type := {
  open_answer : HANDLE;
  query_answer : BOOL * PROCESS_MEMORY_COUNTERS;
  close_answer : BOOL
}.

#[global] Instance scripted : Win32API Script := {
  os_OpenProcess _ _ _ s := (open_answer s, s);
  os_GetProcessMemoryInfo _ _ s := (query_answer s, s);
  os_CloseHandle _ s := (close_answer s, s)
}.

(** Counters of a process whose working set is [ws] bytes, as a 64-bit
    Windows fills them in. *)
Definition counters (ws : SIZE_T) : PROCESS_MEMORY_COUNTERS := {|
  cb := 72;
  PageFaultCount := 0;
  PeakWorkingSetSize := ws;
  WorkingSetSize := ws;
  QuotaPeakPagedPoolUsage := 0;
  QuotaPagedPoolUsage := 0;
  QuotaPeakNonPagedPoolUsage := 0;
  QuotaNonPagedPoolUsage := 0;
  PagefileUsage := 0;
  PeakPagefileUsage := 0
|}.

(** The process is there and the query succeeds with a working set of [ws]. *)
Definition running (ws : SIZE_T) : Script :=
  {| open_answer := 0x1a4; query_answer := (TRUE, counters ws);
     close_answer := TRUE |}.

(** [OpenProcess] refuses: no such process, or no permission. *)
Definition inaccessible : Script :=
  {| open_answer := NULL; query_answer := (FALSE, counters 0);
     close_answer := FALSE |}.

(** A handle is granted but the memory query fails. *)
Definition exited : Script :=
  {| open_answer := 0x1a4; query_answer := (FALSE, counters 0);
     close_answer := TRUE |}.

(** ** The paths through [get_memory_usage]

    The function has three ways to its [return]: the early one when
    [OpenProcess] answers [NULL], and the two arms of the [if] around
    [GetProcessMemoryInfo], which meet again at [CloseHandle].  [Path pid w o]
    says that, called with [pid] in world [w], one of them leads to [o]. *)

Abbreviation QUERY_ACCESS := (Z.lor PROCESS_QUERY_INFORMATION PROCESS_VM_READ).

Section Paths.

Context {W : Type} `{Win32API W}.
Variable target : Target.

Inductive Path (pid : DWORD) (w : W) : Outcome W int -> Prop :=
| path_not_found (h : HANDLE) (w1 : W) :
    os_OpenProcess QUERY_ACCESS FALSE pid w = (h, w1) ->
    h = NULL ->
    Path pid w
      {| result := -1; world := w1;
         trace := [EvOpenProcess QUERY_ACCESS FALSE pid h] |}
| path_query_failed (h : HANDLE) (w1 : W) (ok : BOOL)
                    (pmc : PROCESS_MEMORY_COUNTERS) (w2 : W)
                    (closed : BOOL) (w3 : W) :
    os_OpenProcess QUERY_ACCESS FALSE pid w = (h, w1) ->
    h <> NULL ->
    os_GetProcessMemoryInfo h (sizeof_PROCESS_MEMORY_COUNTERS target) w1
      = ((ok, pmc), w2) ->
    ok = 0 ->
    os_CloseHandle h w2 = (closed, w3) ->
    Path pid w
      {| result := -1; world := w3;
         trace := [EvOpenProcess QUERY_ACCESS FALSE pid h;
                   EvGetProcessMemoryInfo
                     h (sizeof_PROCESS_MEMORY_COUNTERS target) ok pmc;
                   EvCloseHandle h closed] |}
| path_measured (h : HANDLE) (w1 : W) (ok : BOOL)
                (pmc : PROCESS_MEMORY_COUNTERS) (w2 : W)
                (closed : BOOL) (w3 : W) :
    os_OpenProcess QUERY_ACCESS FALSE pid w = (h, w1) ->
    h <> NULL ->
    os_GetProcessMemoryInfo h (sizeof_PROCESS_MEMORY_COUNTERS target) w1
      = ((ok, pmc), w2) ->
    ok <> 0 ->
    os_CloseHandle h w2 = (closed, w3) ->
    Path pid w
      {| result := int_of_SIZE_T (WorkingSetSize pmc); world := w3;
         trace := [EvOpenProcess QUERY_ACCESS FALSE pid h;
                   EvGetProcessMemoryInfo
                     h (sizeof_PROCESS_MEMORY_COUNTERS target) ok pmc;
                   EvCloseHandle h closed] |}.

End Paths.

(** * Properties *)

(** ** The conversion to [int] *)

Lemma int_of_SIZE_T_mod (z : SIZE_T) :
  int_of_SIZE_T z =
    if z mod 2 ^ 32 <? 2 ^ 31 then z mod 2 ^ 32 else z mod 2 ^ 32 - 2 ^ 32.
Proof.
  unfold int_of_SIZE_T. cbv zeta.
  rewrite Z.land_ones by lia.
  set (m := z mod 2 ^ 32).
  assert (Hm : 0 <= m < 2 ^ 32) by (apply Z.mod_pos_bound; lia).
  destruct (m <? 2 ^ 31) eqn:Hlt.
  - apply Z.ltb_lt in Hlt.
    replace (Z.testbit m 31) with false; [reflexivity|].
    symmetry. apply Z.bits_above_log2; [lia|].
    destruct (Z.eq_dec m 0) as [->|Hnz]; [cbn; lia|].
    apply Z.log2_lt_pow2; lia.
  - apply Z.ltb_ge in Hlt.
    replace (Z.testbit m 31) with true; [reflexivity|].
    symmetry. rewrite Z.testbit_true by lia.
    replace (m / 2 ^ 31) with 1; [reflexivity|].
    apply Z.div_unique with (r := m - 2 ^ 31); lia.
Qed.

Lemma int_of_SIZE_T_range (z : SIZE_T) : int_range (int_of_SIZE_T z).
Proof.
  rewrite int_of_SIZE_T_mod. unfold int_range.
  pose proof (Z.mod_pos_bound z (2 ^ 32) ltac:(lia)) as Hm.
  destruct (z mod 2 ^ 32 <? 2 ^ 31) eqn:Hlt;
    [apply Z.ltb_lt in Hlt | apply Z.ltb_ge in Hlt]; lia.
Qed.

Lemma int_of_SIZE_T_congruent (z : SIZE_T) :
  int_of_SIZE_T z mod 2 ^ 32 = z mod 2 ^ 32.
Proof.
  rewrite int_of_SIZE_T_mod.
  destruct (z mod 2 ^ 32 <? 2 ^ 31).
  - apply Z.mod_mod. lia.
  - replace (z mod 2 ^ 32 - 2 ^ 32) with (z mod 2 ^ 32 + (-1) * 2 ^ 32) by lia.
    rewrite Z.mod_add by lia. apply Z.mod_mod. lia.
Qed.

Lemma int_of_SIZE_T_small (z : SIZE_T) :
  0 <= z < 2 ^ 31 -> int_of_SIZE_T z = z.
Proof.
  intros Hz. rewrite int_of_SIZE_T_mod.
  rewrite Z.mod_small by lia.
  destruct (z <? 2 ^ 31) eqn:Hlt; [reflexivity | apply Z.ltb_ge in Hlt; lia].
Qed.

Lemma int_of_SIZE_T_high (z : SIZE_T) :
  2 ^ 31 <= z < 2 ^ 32 -> int_of_SIZE_T z = z - 2 ^ 32.
Proof.
  intros Hz. rewrite int_of_SIZE_T_mod.
  rewrite Z.mod_small by lia.
  destruct (z <? 2 ^ 31) eqn:Hlt; [apply Z.ltb_lt in Hlt; lia | reflexivity].
Qed.

(** ** Running, sequencing and the log *)

Section Running.

Context {W : Type} `{Win32API W}.
Variable target : Target.

Lemma run_bind {A B : Type} (p : Prog A) (f : A -> Prog B) (w : W) :
  run (bind p f) w =
    {| result := result (run (f (result (run p w))) (world (run p w)));
       world := world (run (f (result (run p w))) (world (run p w)));
       trace := trace (run p w)
                  ++ trace (run (f (result (run p w))) (world (run p w))) |}.
Proof.
  revert w. induction p as [a | X c k IH]; intros w; cbn.
  - destruct (run (f a) w); reflexivity.
  - destruct (perform c w) as [x w']. cbn. rewrite IH. reflexivity.
Qed.

(** Every call of the function takes one of the three paths. *)
Lemma run_path (pid : DWORD) (w : W) :
  Path target pid w (run (get_memory_usage target pid) w).
Proof.
  unfold get_memory_usage, call. cbn [bind run perform log].
  destruct (os_OpenProcess QUERY_ACCESS FALSE pid w) as [h w1] eqn:Hopen.
  destruct (h =? NULL) eqn:Hnull; cbn [bind run perform log result world trace].
  - apply Z.eqb_eq in Hnull. now apply path_not_found.
  - apply Z.eqb_neq in Hnull.
    destruct (os_GetProcessMemoryInfo h (sizeof_PROCESS_MEMORY_COUNTERS target) w1)
      as [[ok pmc] w2] eqn:Hquery.
    destruct (os_CloseHandle h w2) as [closed w3] eqn:Hclose.
    destruct (ok =? 0) eqn:Hok;
      cbn [bind run perform log fst snd negb]; rewrite Hclose;
      cbn [result world trace].
    + apply Z.eqb_eq in Hok. now apply path_query_failed with (w1 := w1) (w2 := w2).
    + apply Z.eqb_neq in Hok. now apply path_measured with (w1 := w1) (w2 := w2).
Qed.

Lemma outstanding_app (tr1 tr2 : list Event) (held : list HANDLE) :
  outstanding (tr1 ++ tr2) held = outstanding tr2 (outstanding tr1 held).
Proof.
  revert held. induction tr1 as [| e tr1 IH]; intros held; [reflexivity|].
  destruct e; cbn; apply IH.
Qed.

Lemma release_head (h : HANDLE) (held : list HANDLE) :
  release h (h :: held) = held.
Proof. cbn. now rewrite Z.eqb_refl. Qed.

Lemma outstanding_invocation (pid : DWORD) (w : W) (held : list HANDLE) :
  outstanding (trace (run (get_memory_usage target pid) w)) held = held.
Proof.
  destruct (run_path pid w) as [h w1 _ Hh | h w1 ok pmc w2 c w3 _ Hh _ _ _
                                 | h w1 ok pmc w2 c w3 _ Hh _ _ _];
    cbn [trace outstanding].
  - subst h. reflexivity.
  - apply Z.eqb_neq in Hh. rewrite Hh. apply release_head.
  - apply Z.eqb_neq in Hh. rewrite Hh. apply release_head.
Qed.

End Running.

(** ** What every call does *)

Section Invocation.

Context {W : Type} `{Win32API W}.
Variable target : Target.

(** Handy forms of [run_path]: the outcome when the handle is refused, and
    when it is granted. *)
Lemma run_refused (pid : DWORD) (w w1 : W) :
  os_OpenProcess QUERY_ACCESS FALSE pid w = (NULL, w1) ->
  run (get_memory_usage target pid) w =
    {| result := -1; world := w1;
       trace := [EvOpenProcess QUERY_ACCESS FALSE pid NULL] |}.
Proof.
  intros Hopen.
  destruct (run_path target pid w)
    as [h w1' Ho Hh | h w1' ok pmc w2 c w3 Ho Hh _ _ _
        | h w1' ok pmc w2 c w3 Ho Hh _ _ _];
    rewrite Hopen in Ho; injection Ho as <- <-;
    [reflexivity | now contradiction Hh | now contradiction Hh].
Qed.

Lemma run_granted (pid : DWORD) (w w1 w2 w3 : W) (h : HANDLE) (ok closed : BOOL)
      (pmc : PROCESS_MEMORY_COUNTERS) :
  os_OpenProcess QUERY_ACCESS FALSE pid w = (h, w1) ->
  h <> NULL ->
  os_GetProcessMemoryInfo h (sizeof_PROCESS_MEMORY_COUNTERS target) w1
    = ((ok, pmc), w2) ->
  os_CloseHandle h w2 = (closed, w3) ->
  run (get_memory_usage target pid) w =
    {| result := if ok =? 0 then -1 else int_of_SIZE_T (WorkingSetSize pmc);
       world := w3;
       trace := [EvOpenProcess QUERY_ACCESS FALSE pid h;
                 EvGetProcessMemoryInfo
                   h (sizeof_PROCESS_MEMORY_COUNTERS target) ok pmc;
                 EvCloseHandle h closed] |}.
Proof.
  intros Hopen Hh Hquery Hclose.
  destruct (run_path target pid w)
    as [h' w1' Ho Hh' | h' w1' ok' pmc' w2' c' w3' Ho Hh' Hq Hok Hc
        | h' w1' ok' pmc' w2' c' w3' Ho Hh' Hq Hok Hc];
    rewrite Hopen in Ho; injection Ho as <- <-.
  - contradiction.
  - rewrite Hquery in Hq. injection Hq as <- <- <-.
    rewrite Hclose in Hc. injection Hc as <- <-.
    subst ok. reflexivity.
  - rewrite Hquery in Hq. injection Hq as <- <- <-.
    rewrite Hclose in Hc. injection Hc as <- <-.
    apply Z.eqb_neq in Hok. rewrite Hok. reflexivity.
Qed.

(** Either failure gives [-1]. *)
Lemma failure_returns_sentinel (pid : DWORD) (w : W) :
  (exists a i p, In (EvOpenProcess a i p NULL)
                    (trace (run (get_memory_usage target pid) w)))
  \/ (exists h s pmc, In (EvGetProcessMemoryInfo h s 0 pmc)
                         (trace (run (get_memory_usage target pid) w))) ->
  result (run (get_memory_usage target pid) w) = -1.
Proof.
  destruct (run_path target pid w)
    as [h w1 _ Hh | h w1 ok pmc w2 c w3 _ Hh _ Hok _
        | h w1 ok pmc w2 c w3 _ Hh _ Hok _]; cbn [result trace];
    try reflexivity.
  intros [(a & i & p & Hin) | (h' & s & pmc' & Hin)]; cbn in Hin;
    repeat (destruct Hin as [Hin | Hin]; try discriminate Hin);
    try contradiction; injection Hin as; congruence.
Qed.

(** A measured working set below 2 GiB comes back as it is. *)
Lemma measured_below_2GiB (pid : DWORD) (w w1 w2 : W) (h : HANDLE) (ok : BOOL)
      (pmc : PROCESS_MEMORY_COUNTERS) :
  os_OpenProcess QUERY_ACCESS FALSE pid w = (h, w1) ->
  h <> NULL ->
  os_GetProcessMemoryInfo h (sizeof_PROCESS_MEMORY_COUNTERS target) w1
    = ((ok, pmc), w2) ->
  ok <> 0 ->
  0 <= WorkingSetSize pmc < 2 ^ 31 ->
  result (run (get_memory_usage target pid) w) = WorkingSetSize pmc.
Proof.
  intros Hopen Hh Hquery Hok Hws.
  destruct (os_CloseHandle h w2) as [c w3] eqn:Hclose.
  rewrite (run_granted pid w w1 w2 w3 h ok c pmc) by assumption.
  cbn [result]. apply Z.eqb_neq in Hok. rewrite Hok.
  now apply int_of_SIZE_T_small.
Qed.

(** A measured working set that is a whole number of 4096-byte pages never
    comes back as [-1]. *)
Lemma measured_pages_not_sentinel (pid : DWORD) (w w1 w2 : W) (h : HANDLE)
      (ok : BOOL) (pmc : PROCESS_MEMORY_COUNTERS) :
  os_OpenProcess QUERY_ACCESS FALSE pid w = (h, w1) ->
  h <> NULL ->
  os_GetProcessMemoryInfo h (sizeof_PROCESS_MEMORY_COUNTERS target) w1
    = ((ok, pmc), w2) ->
  ok <> 0 ->
  WorkingSetSize pmc mod 4096 = 0 ->
  result (run (get_memory_usage target pid) w) <> -1.
Proof.
  intros Hopen Hh Hquery Hok Hpages.
  destruct (os_CloseHandle h w2) as [c w3] eqn:Hclose.
  rewrite (run_granted pid w w1 w2 w3 h ok c pmc) by assumption.
  cbn [result]. apply Z.eqb_neq in Hok. rewrite Hok.
  pose proof (int_of_SIZE_T_congruent (WorkingSetSize pmc)) as Hcong.
  intros Heq. rewrite Heq in Hcong.
  change ((-1) mod 2 ^ 32) with (2 ^ 32 - 1) in Hcong.
  assert (Hlow : (WorkingSetSize pmc mod 2 ^ 32) mod 4096 = 0).
  { replace (2 ^ 32) with (4096 * 2 ^ 20) by reflexivity.
    rewrite Z.rem_mul_r by lia.
    rewrite Z.mul_comm, Z.mod_add by lia.
    rewrite Z.mod_mod by lia. exact Hpages. }
  rewrite <- Hcong in Hlow. discriminate Hlow.
Qed.

(** C4. When [OpenProcess] answers [NULL] the function returns [-1] at once:
    the log holds that one call and nothing else, so neither
    [GetProcessMemoryInfo] nor [CloseHandle] is called, and the world is the
    one [OpenProcess] left. *)
Theorem refusal_returns_at_once (pid : DWORD) (w : W) :
  fst (os_OpenProcess QUERY_ACCESS FALSE pid w) = NULL ->
  run (get_memory_usage target pid) w =
    {| result := -1;
       world := snd (os_OpenProcess QUERY_ACCESS FALSE pid w);
       trace := [EvOpenProcess QUERY_ACCESS FALSE pid NULL] |}
  /\ calls_GetProcessMemoryInfo (trace (run (get_memory_usage target pid) w))
       = 0%nat
  /\ calls_CloseHandle (trace (run (get_memory_usage target pid) w)) = 0%nat.
Proof.
  destruct (os_OpenProcess QUERY_ACCESS FALSE pid w) as [h w1] eqn:Hopen.
  cbn [fst snd]. intros ->.
  rewrite (run_refused pid w w1 Hopen). repeat split.
Qed.

(** C5. Whenever a handle was granted, the log of the call ends with
    [CloseHandle] on that very handle, and that is the only [CloseHandle] in
    it; on every path the handles outstanding after the call are those
    outstanding before it, and so they are after any number of calls. *)
Theorem handle_released_on_every_path
        (pid : DWORD) (w : W) (pids : list DWORD) (w0 : W)
        (held : list HANDLE) :
  (fst (os_OpenProcess QUERY_ACCESS FALSE pid w) <> NULL ->
   exists before closed,
     trace (run (get_memory_usage target pid) w)
       = before ++ [EvCloseHandle
                      (fst (os_OpenProcess QUERY_ACCESS FALSE pid w)) closed]
     /\ calls_CloseHandle before = 0%nat
     /\ calls_CloseHandle (trace (run (get_memory_usage target pid) w))
          = 1%nat)
  /\ outstanding (trace (run (get_memory_usage target pid) w)) held = held
  /\ outstanding (trace (run (invoke_each target pids) w0)) held = held.
Proof.
  split; [| split].
  - destruct (os_OpenProcess QUERY_ACCESS FALSE pid w) as [h w1] eqn:Hopen.
    cbn [fst]. intros Hh.
    destruct (os_GetProcessMemoryInfo
                h (sizeof_PROCESS_MEMORY_COUNTERS target) w1)
      as [[ok pmc] w2] eqn:Hquery.
    destruct (os_CloseHandle h w2) as [c w3] eqn:Hclose.
    rewrite (run_granted pid w w1 w2 w3 h ok c pmc) by assumption.
    cbn [trace].
    exists [EvOpenProcess QUERY_ACCESS FALSE pid h;
            EvGetProcessMemoryInfo
              h (sizeof_PROCESS_MEMORY_COUNTERS target) ok pmc], c.
    repeat split.
  - apply outstanding_invocation.
  - revert w0. induction pids as [| p rest IH]; intros w0; [reflexivity|].
    cbn [invoke_each]. rewrite run_bind. cbn [trace].
    rewrite outstanding_app, outstanding_invocation.
    rewrite run_bind. cbn [trace run]. rewrite app_nil_r. apply IH.
Qed.

(** C6. On a successful query the value returned is the reported working-set
    size reduced modulo 2^32 and read as a signed 32-bit integer: it lies in
    the range of [int] and is congruent to the size.  For a size in
    [2^31, 2^32) it is the size minus 2^32, hence negative; for a size of
    2^32 or more it is not the size. *)
Theorem result_is_size_truncated_to_int
        (pid : DWORD) (w w1 w2 : W) (h : HANDLE) (ok : BOOL)
        (pmc : PROCESS_MEMORY_COUNTERS) :
  os_OpenProcess QUERY_ACCESS FALSE pid w = (h, w1) ->
  h <> NULL ->
  os_GetProcessMemoryInfo h (sizeof_PROCESS_MEMORY_COUNTERS target) w1
    = ((ok, pmc), w2) ->
  ok <> 0 ->
  int_range (result (run (get_memory_usage target pid) w))
  /\ result (run (get_memory_usage target pid) w) mod 2 ^ 32
       = WorkingSetSize pmc mod 2 ^ 32
  /\ (2 ^ 31 <= WorkingSetSize pmc < 2 ^ 32 ->
      result (run (get_memory_usage target pid) w)
        = WorkingSetSize pmc - 2 ^ 32
      /\ result (run (get_memory_usage target pid) w) < 0)
  /\ (2 ^ 32 <= WorkingSetSize pmc ->
      result (run (get_memory_usage target pid) w) <> WorkingSetSize pmc).
Proof.
  intros Hopen Hh Hquery Hok.
  destruct (os_CloseHandle h w2) as [c w3] eqn:Hclose.
  rewrite (run_granted pid w w1 w2 w3 h ok c pmc) by assumption.
  cbn [result]. apply Z.eqb_neq in Hok. rewrite Hok.
  pose proof (int_of_SIZE_T_range (WorkingSetSize pmc)) as Hr.
  repeat split; try apply Hr.
  - apply int_of_SIZE_T_congruent.
  - now apply int_of_SIZE_T_high.
  - rewrite int_of_SIZE_T_high by assumption. lia.
  - unfold int_range in Hr. lia.
Qed.

(** C8. Nothing is tried twice: the log of a call holds exactly one
    [OpenProcess], and one [GetProcessMemoryInfo] when a handle was granted,
    none otherwise; a refusal or a failed query anywhere in the log means the
    call returned [-1]. *)
Theorem no_retry (pid : DWORD) (w : W) :
  calls_OpenProcess (trace (run (get_memory_usage target pid) w)) = 1%nat
  /\ calls_GetProcessMemoryInfo (trace (run (get_memory_usage target pid) w))
       = (if fst (os_OpenProcess QUERY_ACCESS FALSE pid w) =? NULL
          then 0%nat else 1%nat)
  /\ (calls_GetProcessMemoryInfo (trace (run (get_memory_usage target pid) w))
       <= 1)%nat
  /\ (forall a i p,
        In (EvOpenProcess a i p NULL)
           (trace (run (get_memory_usage target pid) w)) ->
        result (run (get_memory_usage target pid) w) = -1)
  /\ (forall h s pmc,
        In (EvGetProcessMemoryInfo h s 0 pmc)
           (trace (run (get_memory_usage target pid) w)) ->
        result (run (get_memory_usage target pid) w) = -1).
Proof.
  assert (Hcount :
    calls_OpenProcess (trace (run (get_memory_usage target pid) w)) = 1%nat
    /\ calls_GetProcessMemoryInfo (trace (run (get_memory_usage target pid) w))
         = (if fst (os_OpenProcess QUERY_ACCESS FALSE pid w) =? NULL
            then 0%nat else 1%nat)).
  { destruct (run_path target pid w)
      as [h w1 Ho Hh | h w1 ok pmc w2 c w3 Ho Hh _ _ _
          | h w1 ok pmc w2 c w3 Ho Hh _ _ _];
      rewrite Ho; cbn [fst trace];
      [subst h | apply Z.eqb_neq in Hh; rewrite Hh ..]; split; reflexivity. }
  destruct Hcount as [Hopen Hquery].
  split; [exact Hopen | split; [exact Hquery | split; [| split]]].
  - rewrite Hquery.
    destruct (fst (os_OpenProcess QUERY_ACCESS FALSE pid w) =? NULL); lia.
  - intros a i p Hin. apply failure_returns_sentinel. left. eauto.
  - intros h s pmc Hin. apply failure_returns_sentinel. right. eauto.
Qed.

(** C10. The identifier is not looked at: whatever it is, the first thing the
    function does is hand it, as it came, to [OpenProcess], and what follows
    depends on the answer alone, not on the identifier.  The only rejection
    is the one of the operating system: on the answer [NULL] the function
    returns [-1] there and then, and on any other answer it goes on to query
    that handle; so the query is left out exactly when the handle was
    refused. *)
Theorem pid_goes_to_OpenProcess_unchecked :
  (exists k : HANDLE -> Prog int,
     (forall pid : DWORD,
        get_memory_usage target pid
          = Call (OpenProcess QUERY_ACCESS FALSE pid) k)
     /\ k NULL = Ret (-1)
     /\ forall h : HANDLE,
          h <> NULL ->
          exists k' : BOOL * PROCESS_MEMORY_COUNTERS -> Prog int,
            k h = Call (GetProcessMemoryInfo
                          h (sizeof_PROCESS_MEMORY_COUNTERS target)) k')
  /\ forall (pid : DWORD) (w : W),
       hd_error (trace (run (get_memory_usage target pid) w))
         = Some (EvOpenProcess QUERY_ACCESS FALSE pid
                   (fst (os_OpenProcess QUERY_ACCESS FALSE pid w)))
       /\ (calls_GetProcessMemoryInfo
             (trace (run (get_memory_usage target pid) w)) = 0%nat
           <-> fst (os_OpenProcess QUERY_ACCESS FALSE pid w) = NULL)
       /\ (fst (os_OpenProcess QUERY_ACCESS FALSE pid w) = NULL ->
           result (run (get_memory_usage target pid) w) = -1)
       /\ (fst (os_OpenProcess QUERY_ACCESS FALSE pid w) <> NULL ->
           nth_error (trace (run (get_memory_usage target pid) w)) 1
             = Some (EvGetProcessMemoryInfo
                       (fst (os_OpenProcess QUERY_ACCESS FALSE pid w))
                       (sizeof_PROCESS_MEMORY_COUNTERS target)
                       (fst (fst (os_GetProcessMemoryInfo
                                    (fst (os_OpenProcess
                                            QUERY_ACCESS FALSE pid w))
                                    (sizeof_PROCESS_MEMORY_COUNTERS target)
                                    (snd (os_OpenProcess
                                            QUERY_ACCESS FALSE pid w)))))
                       (snd (fst (os_GetProcessMemoryInfo
                                    (fst (os_OpenProcess
                                            QUERY_ACCESS FALSE pid w))
                                    (sizeof_PROCESS_MEMORY_COUNTERS target)
                                    (snd (os_OpenProcess
                                            QUERY_ACCESS FALSE pid w))))))).
Proof.
  split.
  - eexists. split; [| split].
    + intros pid. unfold get_memory_usage, call. cbn [bind]. reflexivity.
    + reflexivity.
    + intros h Hh. cbn beta. cbn [bind].
      apply Z.eqb_neq in Hh. rewrite Hh.
      unfold call. cbn [bind]. eexists. reflexivity.
  - intros pid w.
    destruct (run_path target pid w)
      as [h w1 Ho Hh | h w1 ok pmc w2 c w3 Ho Hh Hq _ _
          | h w1 ok pmc w2 c w3 Ho Hh Hq _ _];
      rewrite Ho; cbn [fst snd trace result hd_error nth_error];
      try (rewrite Hq; cbn [fst snd]);
      unfold calls_GetProcessMemoryInfo; cbn [filter length].
    + subst h. repeat split; try reflexivity. intros Hn. now contradiction Hn.
    + repeat split; try reflexivity; try discriminate.
      intros Hn. now contradiction Hh.
    + repeat split; try reflexivity; try discriminate.
      * intros Hn. now contradiction Hh.
      * intros Hn. now contradiction Hh.
Qed.

End Invocation.

(** ** The function on concrete answers *)

(** C1. A running, accessible process whose working set is 2 GiB: the handle
    is granted, the query succeeds, the size fits [SIZE_T], and the value
    returned is negative. *)
Theorem two_GiB_comes_back_negative :
  open_answer (running (2 ^ 31)) <> NULL
  /\ fst (query_answer (running (2 ^ 31))) <> 0
  /\ SIZE_T_range Win64
       (WorkingSetSize (snd (query_answer (running (2 ^ 31)))))
  /\ result (run (get_memory_usage Win64 1234) (running (2 ^ 31)))
       = -2147483648
  /\ ~ 0 <= result (run (get_memory_usage Win64 1234) (running (2 ^ 31))).
Proof.
  split; [discriminate | split; [discriminate | split; [| split]]].
  - unfold SIZE_T_range. cbn. lia.
  - reflexivity.
  - vm_compute. intros Hle. apply Hle. reflexivity.
Qed.

(** The sentinel is safe only because sizes come in whole pages: were a
    successful query to report 4294967295 bytes, the value returned would be
    [-1], the same as when the handle is refused or the query fails. *)
Theorem sentinel_without_failure :
  open_answer (running (2 ^ 32 - 1)) <> NULL
  /\ fst (query_answer (running (2 ^ 32 - 1))) <> 0
  /\ SIZE_T_range Win64
       (WorkingSetSize (snd (query_answer (running (2 ^ 32 - 1)))))
  /\ result (run (get_memory_usage Win64 1234) (running (2 ^ 32 - 1))) = -1
  /\ result (run (get_memory_usage Win64 1234) inaccessible) = -1
  /\ result (run (get_memory_usage Win64 1234) exited) = -1.
Proof.
  split; [discriminate | split; [discriminate | split]].
  - unfold SIZE_T_range. cbn. lia.
  - repeat split.
Qed.

(** C3. A successful query that reports 5 GiB: the value returned is
    1073741824, which is not the working-set counter of the structure the
    operating system filled in. *)
Theorem five_GiB_comes_back_as_one_GiB :
  open_answer (running (5 * 2 ^ 30)) <> NULL
  /\ fst (query_answer (running (5 * 2 ^ 30))) <> 0
  /\ SIZE_T_range Win64
       (WorkingSetSize (snd (query_answer (running (5 * 2 ^ 30)))))
  /\ result (run (get_memory_usage Win64 1234) (running (5 * 2 ^ 30)))
       = 1073741824
  /\ result (run (get_memory_usage Win64 1234) (running (5 * 2 ^ 30)))
       <> WorkingSetSize (snd (query_answer (running (5 * 2 ^ 30)))).
Proof.
  split; [discriminate | split; [discriminate | split; [| split]]].
  - unfold SIZE_T_range. cbn. lia.
  - reflexivity.
  - discriminate.
Qed.

(** ** Instances *)

Lemma refusal_returns_at_once_witness :
  fst (os_OpenProcess QUERY_ACCESS FALSE 0 inaccessible) = NULL
  /\ run (get_memory_usage Win64 0) inaccessible
       = {| result := -1; world := inaccessible;
            trace := [EvOpenProcess 1040 0 0 0] |}.
Proof.
  split; [reflexivity|].
  exact (proj1 (refusal_returns_at_once Win64 0 inaccessible eq_refl)).
Defined.

Lemma handle_released_on_every_path_witness :
  fst (os_OpenProcess QUERY_ACCESS FALSE 1234 exited) <> NULL
  /\ (exists before closed,
        trace (run (get_memory_usage Win64 1234) exited)
          = before ++ [EvCloseHandle 420 closed]
        /\ calls_CloseHandle before = 0%nat
        /\ calls_CloseHandle (trace (run (get_memory_usage Win64 1234) exited))
             = 1%nat)
  /\ outstanding
       (trace (run (invoke_each Win64 [0; 1234; 4294967295]) (running 8192)))
       [7] = [7].
Proof.
  assert (Hh : fst (os_OpenProcess QUERY_ACCESS FALSE 1234 exited) <> NULL)
    by discriminate.
  split; [exact Hh | split].
  - exact (proj1 (handle_released_on_every_path
                    Win64 1234 exited [] exited []) Hh).
  - exact (proj2 (proj2 (handle_released_on_every_path
                           Win64 1234 exited [0; 1234; 4294967295]
                           (running 8192) [7]))).
Defined.

Lemma result_is_size_truncated_to_int_witness :
  (2 ^ 31 <= WorkingSetSize (counters (3 * 2 ^ 30)) < 2 ^ 32)
  /\ result (run (get_memory_usage Win64 1234) (running (3 * 2 ^ 30)))
       = WorkingSetSize (counters (3 * 2 ^ 30)) - 2 ^ 32
  /\ result (run (get_memory_usage Win64 1234) (running (3 * 2 ^ 30))) < 0.
Proof.
  assert (Hws : 2 ^ 31 <= WorkingSetSize (counters (3 * 2 ^ 30)) < 2 ^ 32)
    by (cbn; lia).
  split; [exact Hws|].
  refine (proj1 (proj2 (proj2
            (result_is_size_truncated_to_int
               Win64 1234 (running (3 * 2 ^ 30)) (running (3 * 2 ^ 30))
               (running (3 * 2 ^ 30)) 420 TRUE (counters (3 * 2 ^ 30))
               _ _ _ _))) Hws);
    [reflexivity | discriminate | reflexivity | discriminate].
Defined.

Lemma no_retry_witness :
  In (EvGetProcessMemoryInfo 420 72 0 (counters 0))
     (trace (run (get_memory_usage Win64 1234) exited))
  /\ result (run (get_memory_usage Win64 1234) exited) = -1.
Proof.
  assert (Hin : In (EvGetProcessMemoryInfo 420 72 0 (counters 0))
                   (trace (run (get_memory_usage Win64 1234) exited)))
    by (right; left; reflexivity).
  split; [exact Hin|].
  exact (proj2 (proj2 (proj2 (proj2 (no_retry Win64 1234 exited))))
           420 72 (counters 0) Hin).
Defined.


(** * Further properties of [get_memory_usage] *)

(** ** More on the conversion to [int] *)

Lemma int_of_SIZE_T_pages (z : SIZE_T) :
  z mod 4096 = 0 -> int_of_SIZE_T z mod 4096 = 0.
Proof.
  intros Hpages.
  assert (Hlow : (z mod 2 ^ 32) mod 4096 = 0).
  { replace (2 ^ 32) with (4096 * 2 ^ 20) by reflexivity.
    rewrite Z.rem_mul_r by lia.
    rewrite Z.mul_comm, Z.mod_add by lia.
    rewrite Z.mod_mod by lia. exact Hpages. }
  rewrite int_of_SIZE_T_mod.
  destruct (z mod 2 ^ 32 <? 2 ^ 31); [exact Hlow|].
  replace (z mod 2 ^ 32 - 2 ^ 32)
    with (z mod 2 ^ 32 + (- 2 ^ 20) * 4096) by lia.
  rewrite Z.mod_add by lia. exact Hlow.
Qed.

Lemma int_of_SIZE_T_same_low_bits (y z : SIZE_T) :
  int_of_SIZE_T y = int_of_SIZE_T z <-> y mod 2 ^ 32 = z mod 2 ^ 32.
Proof.
  split.
  - intros Heq. rewrite <- (int_of_SIZE_T_congruent y), Heq.
    apply int_of_SIZE_T_congruent.
  - intros Heq. rewrite !int_of_SIZE_T_mod, Heq. reflexivity.
Qed.

(** ** Sequences of calls *)

Section Sequences.

Context {W : Type} `{Win32API W}.
Variable target : Target.

Lemma run_invoke_each_cons (pid : DWORD) (rest : list DWORD) (w : W) :
  run (invoke_each target (pid :: rest)) w =
    {| result := result (run (get_memory_usage target pid) w)
                 :: result (run (invoke_each target rest)
                                (world (run (get_memory_usage target pid) w)));
       world := world (run (invoke_each target rest)
                           (world (run (get_memory_usage target pid) w)));
       trace := trace (run (get_memory_usage target pid) w)
                ++ trace (run (invoke_each target rest)
                              (world (run (get_memory_usage target pid) w))) |}.
Proof.
  cbn [invoke_each]. rewrite run_bind. cbn [result world trace].
  rewrite run_bind. cbn [run result world trace]. now rewrite app_nil_r.
Qed.

Lemma disciplined_app (tr1 tr2 : list Event) (held : list HANDLE) :
  disciplined (tr1 ++ tr2) held
    = disciplined tr1 held && disciplined tr2 (outstanding tr1 held).
Proof.
  revert held. induction tr1 as [| e tr1 IH]; intros held; [reflexivity|].
  destruct e; cbn [app disciplined outstanding]; rewrite IH;
    [reflexivity | |]; now rewrite andb_assoc.
Qed.

Lemma holds_head (h : HANDLE) (held : list HANDLE) : holds h (h :: held) = true.
Proof. unfold holds. cbn. now rewrite Z.eqb_refl. Qed.

Lemma disciplined_invocation (pid : DWORD) (w : W) (held : list HANDLE) :
  disciplined (trace (run (get_memory_usage target pid) w)) held = true.
Proof.
  destruct (run_path target pid w)
    as [h w1 _ Hh | h w1 ok pmc w2 c w3 _ Hh _ _ _
        | h w1 ok pmc w2 c w3 _ Hh _ _ _];
    cbn [trace disciplined]; [reflexivity | |];
    apply Z.eqb_neq in Hh; rewrite Hh, holds_head; reflexivity.
Qed.

Lemma counts_invocation (pid : DWORD) (w : W) :
  calls_OpenProcess (trace (run (get_memory_usage target pid) w)) = 1%nat
  /\ calls_GetProcessMemoryInfo (trace (run (get_memory_usage target pid) w))
       = handles_granted (trace (run (get_memory_usage target pid) w))
  /\ calls_CloseHandle (trace (run (get_memory_usage target pid) w))
       = handles_granted (trace (run (get_memory_usage target pid) w))
  /\ length (trace (run (get_memory_usage target pid) w))
       = (1 + 2 * handles_granted
                    (trace (run (get_memory_usage target pid) w)))%nat
  /\ (handles_granted (trace (run (get_memory_usage target pid) w)) <= 1)%nat.
Proof.
  destruct (run_path target pid w)
    as [h w1 _ Hh | h w1 ok pmc w2 c w3 _ Hh _ _ _
        | h w1 ok pmc w2 c w3 _ Hh _ _ _];
    unfold calls_OpenProcess, calls_GetProcessMemoryInfo, calls_CloseHandle,
      handles_granted;
    cbn [trace filter length];
    [subst h | apply Z.eqb_neq in Hh; rewrite Hh ..];
    cbn [Z.eqb NULL negb length]; repeat split; lia.
Qed.

End Sequences.

Section Measurements.

Context {W : Type} `{Win32API W}.
Variable target : Target.

Lemma result_in_int_range (pid : DWORD) (w : W) :
  int_range (result (run (get_memory_usage target pid) w)).
Proof.
  destruct (run_path target pid w)
    as [h w1 _ _ | h w1 ok pmc w2 c w3 _ _ _ _ _
        | h w1 ok pmc w2 c w3 _ _ _ _ _]; cbn [result];
    [unfold int_range; lia .. | apply int_of_SIZE_T_range].
Qed.

Lemma counts_app (tr1 tr2 : list Event) :
  calls_OpenProcess (tr1 ++ tr2)
    = (calls_OpenProcess tr1 + calls_OpenProcess tr2)%nat
  /\ calls_GetProcessMemoryInfo (tr1 ++ tr2)
       = (calls_GetProcessMemoryInfo tr1 + calls_GetProcessMemoryInfo tr2)%nat
  /\ calls_CloseHandle (tr1 ++ tr2)
       = (calls_CloseHandle tr1 + calls_CloseHandle tr2)%nat
  /\ handles_granted (tr1 ++ tr2)
       = (handles_granted tr1 + handles_granted tr2)%nat.
Proof.
  unfold calls_OpenProcess, calls_GetProcessMemoryInfo, calls_CloseHandle,
    handles_granted.
  now rewrite !filter_app, !length_app.
Qed.

(** X1. After a successful query that reports a size that is not negative,
    the value returned is that size exactly when the size is below 2^31
    bytes, and it is then not negative; for any size below 2^32 the size is
    the value returned read as an unsigned 32-bit number. *)
Theorem exact_exactly_below_2GiB
        (pid : DWORD) (w w1 w2 : W) (h : HANDLE) (ok : BOOL)
        (pmc : PROCESS_MEMORY_COUNTERS) :
  os_OpenProcess QUERY_ACCESS FALSE pid w = (h, w1) ->
  h <> NULL ->
  os_GetProcessMemoryInfo h (sizeof_PROCESS_MEMORY_COUNTERS target) w1
    = ((ok, pmc), w2) ->
  ok <> 0 ->
  0 <= WorkingSetSize pmc ->
  (result (run (get_memory_usage target pid) w) = WorkingSetSize pmc
   <-> WorkingSetSize pmc < 2 ^ 31)
  /\ (WorkingSetSize pmc < 2 ^ 31 ->
      0 <= result (run (get_memory_usage target pid) w))
  /\ (WorkingSetSize pmc < 2 ^ 32 ->
      result (run (get_memory_usage target pid) w) mod 2 ^ 32
        = WorkingSetSize pmc).
Proof.
  intros Hopen Hh Hquery Hok Hpos.
  destruct (os_CloseHandle h w2) as [c w3] eqn:Hclose.
  rewrite (run_granted target pid w w1 w2 w3 h ok c pmc) by assumption.
  cbn [result]. apply Z.eqb_neq in Hok. rewrite Hok.
  pose proof (int_of_SIZE_T_range (WorkingSetSize pmc)) as Hr.
  unfold int_range in Hr.
  split; [split | split].
  - intros Heq. rewrite Heq in Hr. lia.
  - intros Hlt. apply int_of_SIZE_T_small. lia.
  - intros Hlt. rewrite int_of_SIZE_T_small; lia.
  - intros Hlt. rewrite int_of_SIZE_T_congruent. apply Z.mod_small. lia.
Qed.

(** X2. A value other than [-1] is always a measurement: the call then made
    its three Win32 calls, the handle was granted, the query succeeded, and
    the value is the reported working-set size converted to [int]. *)
Theorem other_than_sentinel_is_a_measurement (pid : DWORD) (w : W) :
  result (run (get_memory_usage target pid) w) <> -1 ->
  exists (h : HANDLE) (ok : BOOL) (pmc : PROCESS_MEMORY_COUNTERS)
         (closed : BOOL),
    trace (run (get_memory_usage target pid) w)
      = [EvOpenProcess QUERY_ACCESS FALSE pid h;
         EvGetProcessMemoryInfo
           h (sizeof_PROCESS_MEMORY_COUNTERS target) ok pmc;
         EvCloseHandle h closed]
    /\ h <> NULL /\ ok <> 0
    /\ result (run (get_memory_usage target pid) w)
         = int_of_SIZE_T (WorkingSetSize pmc).
Proof.
  destruct (run_path target pid w)
    as [h w1 _ Hh | h w1 ok pmc w2 c w3 _ Hh _ Hok _
        | h w1 ok pmc w2 c w3 _ Hh _ Hok _]; cbn [result trace]; intros Hne.
  - now contradiction Hne.
  - now contradiction Hne.
  - exists h, ok, pmc, c. repeat split; assumption.
Qed.

(** X3. When every successful query in the log of a call reports a whole
    number of 4096-byte pages, the call returns [-1] if and only if the
    handle was refused or the query failed. *)
Theorem sentinel_iff_failure_for_whole_pages (pid : DWORD) (w : W) :
  (forall h s ok pmc,
      In (EvGetProcessMemoryInfo h s ok pmc)
         (trace (run (get_memory_usage target pid) w)) ->
      ok <> 0 -> WorkingSetSize pmc mod 4096 = 0) ->
  (result (run (get_memory_usage target pid) w) = -1
   <-> (exists a i p, In (EvOpenProcess a i p NULL)
                         (trace (run (get_memory_usage target pid) w)))
       \/ (exists h s pmc, In (EvGetProcessMemoryInfo h s 0 pmc)
                              (trace (run (get_memory_usage target pid) w)))).
Proof.
  intros Hpages. split; [| apply failure_returns_sentinel].
  revert Hpages.
  destruct (run_path target pid w)
    as [h w1 _ Hh | h w1 ok pmc w2 c w3 _ Hh _ Hok _
        | h w1 ok pmc w2 c w3 _ Hh _ Hok _]; cbn [result trace];
    intros Hpages Hres.
  - left. subst h. do 3 eexists. left. reflexivity.
  - right. subst ok. do 3 eexists. right. left. reflexivity.
  - exfalso.
    assert (Hws : WorkingSetSize pmc mod 4096 = 0).
    { apply (Hpages h (sizeof_PROCESS_MEMORY_COUNTERS target) ok pmc);
        [right; left; reflexivity | exact Hok]. }
    apply int_of_SIZE_T_pages in Hws. rewrite Hres in Hws. discriminate Hws.
Qed.

(** X4. Handles are used properly, in one call and in any sequence of calls,
    whatever the operating system answers: [GetProcessMemoryInfo] and
    [CloseHandle] are never given [NULL], a handle that was not granted, or a
    handle already closed. *)
Theorem handles_used_properly
        (pid : DWORD) (w : W) (pids : list DWORD) (w0 : W)
        (held : list HANDLE) :
  disciplined (trace (run (get_memory_usage target pid) w)) held = true
  /\ disciplined (trace (run (invoke_each target pids) w0)) held = true.
Proof.
  split; [apply disciplined_invocation|].
  revert w0. induction pids as [| p rest IH]; intros w0; [reflexivity|].
  rewrite run_invoke_each_cons. cbn [trace].
  rewrite disciplined_app, disciplined_invocation, outstanding_invocation.
  apply IH.
Qed.

(** X5. A sequence of calls over [n] identifiers returns [n] values, each in
    the range of [int], and makes exactly [n] calls of [OpenProcess]; it
    calls [GetProcessMemoryInfo] and [CloseHandle] once each per handle
    granted, so its log has [n] plus twice the number of granted handles
    entries. *)
Theorem calls_balance_over_a_sequence (pids : list DWORD) (w : W) :
  length (result (run (invoke_each target pids) w)) = length pids
  /\ Forall int_range (result (run (invoke_each target pids) w))
  /\ calls_OpenProcess (trace (run (invoke_each target pids) w))
       = length pids
  /\ calls_GetProcessMemoryInfo (trace (run (invoke_each target pids) w))
       = handles_granted (trace (run (invoke_each target pids) w))
  /\ calls_CloseHandle (trace (run (invoke_each target pids) w))
       = handles_granted (trace (run (invoke_each target pids) w))
  /\ length (trace (run (invoke_each target pids) w))
       = (length pids
          + 2 * handles_granted (trace (run (invoke_each target pids) w)))%nat
  /\ (handles_granted (trace (run (invoke_each target pids) w))
      <= length pids)%nat.
Proof.
  revert w. induction pids as [| p rest IH]; intros w.
  - cbn. repeat split; try constructor.
  - rewrite run_invoke_each_cons. cbn [result trace length].
    destruct (IH (world (run (get_memory_usage target p) w)))
      as (Hlen & Hrange & Hopen & Hquery & Hclose & Htotal & Hle).
    destruct (counts_invocation target p w) as (Ho1 & Hq1 & Hc1 & Ht1 & Hg1).
    destruct (counts_app
                (trace (run (get_memory_usage target p) w))
                (trace (run (invoke_each target rest)
                            (world (run (get_memory_usage target p) w)))))
      as (-> & -> & -> & ->).
    rewrite length_app, Hlen, Ho1, Hq1, Hc1, Ht1, Hopen, Hquery, Hclose,
      Htotal.
    split; [reflexivity | split]; [| repeat split; lia].
    constructor; [apply result_in_int_range | exact Hrange].
Qed.

End Measurements.

(** X6. Two successful calls return the same value exactly when the sizes
    reported to them agree modulo 2^32, whatever the identifiers, the
    targets, the handles, the other counters, the answers of [CloseHandle]
    and the operating systems are. *)
Theorem same_value_iff_same_low_bits
        {W1 W2 : Type} `{Win32API W1} `{Win32API W2}
        (t1 t2 : Target) (pid1 pid2 : DWORD)
        (w1 u1 v1 : W1) (w2 u2 v2 : W2) (h1 h2 : HANDLE) (ok1 ok2 : BOOL)
        (pmc1 pmc2 : PROCESS_MEMORY_COUNTERS) :
  os_OpenProcess QUERY_ACCESS FALSE pid1 w1 = (h1, u1) ->
  h1 <> NULL ->
  os_GetProcessMemoryInfo h1 (sizeof_PROCESS_MEMORY_COUNTERS t1) u1
    = ((ok1, pmc1), v1) ->
  ok1 <> 0 ->
  os_OpenProcess QUERY_ACCESS FALSE pid2 w2 = (h2, u2) ->
  h2 <> NULL ->
  os_GetProcessMemoryInfo h2 (sizeof_PROCESS_MEMORY_COUNTERS t2) u2
    = ((ok2, pmc2), v2) ->
  ok2 <> 0 ->
  (result (run (get_memory_usage t1 pid1) w1)
     = result (run (get_memory_usage t2 pid2) w2)
   <-> WorkingSetSize pmc1 mod 2 ^ 32 = WorkingSetSize pmc2 mod 2 ^ 32).
Proof.
  intros Ho1 Hh1 Hq1 Hok1 Ho2 Hh2 Hq2 Hok2.
  destruct (os_CloseHandle h1 v1) as [c1 x1] eqn:Hc1.
  destruct (os_CloseHandle h2 v2) as [c2 x2] eqn:Hc2.
  rewrite (run_granted t1 pid1 w1 u1 v1 x1 h1 ok1 c1 pmc1) by assumption.
  rewrite (run_granted t2 pid2 w2 u2 v2 x2 h2 ok2 c2 pmc2) by assumption.
  cbn [result].
  apply Z.eqb_neq in Hok1, Hok2. rewrite Hok1, Hok2.
  apply int_of_SIZE_T_same_low_bits.
Qed.

(** ** Further instances *)

Lemma exact_exactly_below_2GiB_witness :
  0 <= WorkingSetSize (counters 8192)
  /\ (result (run (get_memory_usage Win64 1234) (running 8192))
        = WorkingSetSize (counters 8192)
      <-> WorkingSetSize (counters 8192) < 2 ^ 31).
Proof.
  assert (Hpos : 0 <= WorkingSetSize (counters 8192)) by (cbn; lia).
  split; [exact Hpos|].
  refine (proj1 (exact_exactly_below_2GiB
                   Win64 1234 (running 8192) (running 8192) (running 8192)
                   420 TRUE (counters 8192) _ _ _ _ Hpos));
    [reflexivity | discriminate | reflexivity | discriminate].
Defined.

Lemma other_than_sentinel_is_a_measurement_witness :
  result (run (get_memory_usage Win64 1234) (running 8192)) <> -1
  /\ exists h ok pmc closed,
       trace (run (get_memory_usage Win64 1234) (running 8192))
         = [EvOpenProcess QUERY_ACCESS FALSE 1234 h;
            EvGetProcessMemoryInfo
              h (sizeof_PROCESS_MEMORY_COUNTERS Win64) ok pmc;
            EvCloseHandle h closed]
       /\ h <> NULL /\ ok <> 0
       /\ result (run (get_memory_usage Win64 1234) (running 8192))
            = int_of_SIZE_T (WorkingSetSize pmc).
Proof.
  assert (Hne : result (run (get_memory_usage Win64 1234) (running 8192))
                <> -1) by discriminate.
  split; [exact Hne|].
  exact (other_than_sentinel_is_a_measurement Win64 1234 (running 8192) Hne).
Defined.

Lemma sentinel_iff_failure_for_whole_pages_witness :
  (forall h s ok pmc,
      In (EvGetProcessMemoryInfo h s ok pmc)
         (trace (run (get_memory_usage Win64 1234) (running 8192))) ->
      ok <> 0 -> WorkingSetSize pmc mod 4096 = 0)
  /\ (result (run (get_memory_usage Win64 1234) (running 8192)) = -1
      <-> (exists a i p,
              In (EvOpenProcess a i p NULL)
                 (trace (run (get_memory_usage Win64 1234) (running 8192))))
          \/ (exists h s pmc,
                 In (EvGetProcessMemoryInfo h s 0 pmc)
                    (trace (run (get_memory_usage Win64 1234)
                                (running 8192))))).
Proof.
  assert (Hpages :
    forall h s ok pmc,
      In (EvGetProcessMemoryInfo h s ok pmc)
         (trace (run (get_memory_usage Win64 1234) (running 8192))) ->
      ok <> 0 -> WorkingSetSize pmc mod 4096 = 0).
  { intros h s ok pmc Hin _. cbn in Hin.
    destruct Hin as [Hin | [Hin | [Hin | []]]]; try discriminate Hin.
    injection Hin as _ _ _ <-. reflexivity. }
  split; [exact Hpages|].
  exact (sentinel_iff_failure_for_whole_pages Win64 1234 (running 8192)
           Hpages).
Defined.

Lemma same_value_iff_same_low_bits_witness :
  WorkingSetSize (counters (2 ^ 30)) mod 2 ^ 32
    = WorkingSetSize (counters (5 * 2 ^ 30)) mod 2 ^ 32
  /\ result (run (get_memory_usage Win64 1) (running (2 ^ 30)))
       = result (run (get_memory_usage Win64 2) (running (5 * 2 ^ 30))).
Proof.
  split; [reflexivity|].
  refine (proj2 (same_value_iff_same_low_bits
                   Win64 Win64 1 2
                   (running (2 ^ 30)) (running (2 ^ 30)) (running (2 ^ 30))
                   (running (5 * 2 ^ 30)) (running (5 * 2 ^ 30))
                   (running (5 * 2 ^ 30))
                   420 420 TRUE TRUE
                   (counters (2 ^ 30)) (counters (5 * 2 ^ 30))
                   _ _ _ _ _ _ _ _) eq_refl);
    first [reflexivity | discriminate].
Defined.

(** * The sentinel, and what the result depends on *)

Section Sentinel.

Context {W : Type} `{Win32API W}.
Variable target : Target.

Lemma cut_invocation (pid : DWORD) (w : W) (rest : list Event) :
  fst (cut rest) = [] ->
  cut (trace (run (get_memory_usage target pid) w) ++ rest)
    = ([], trace (run (get_memory_usage target pid) w) :: snd (cut rest)).
Proof.
  intros Hrest.
  destruct (run_path target pid w)
    as [h w1 _ _ | h w1 ok pmc w2 c w3 _ _ _ _ _
        | h w1 ok pmc w2 c w3 _ _ _ _ _];
    cbn [trace app cut is_OpenProcess];
    destruct (cut rest) as [pending pieces]; cbn [fst snd] in *;
    subst pending; reflexivity.
Qed.

Lemma cut_sequence (pids : list DWORD) (w : W) :
  fst (cut (trace (run (invoke_each target pids) w))) = [].
Proof.
  revert w. induction pids as [| p rest IH]; intros w; [reflexivity|].
  rewrite run_invoke_each_cons. cbn [trace].
  rewrite cut_invocation by apply IH. reflexivity.
Qed.

Lemma per_call_sequence (pid : DWORD) (rest : list DWORD) (w : W) :
  per_call (trace (run (invoke_each target (pid :: rest)) w))
    = trace (run (get_memory_usage target pid) w)
      :: per_call (trace (run (invoke_each target rest)
                              (world (run (get_memory_usage target pid) w)))).
Proof.
  unfold per_call. rewrite run_invoke_each_cons. cbn [trace].
  rewrite cut_invocation by apply cut_sequence. reflexivity.
Qed.


End Sentinel.

(** C9. The function keeps no state of its own and reads nothing but what
    the operating system answers: there is one function [f] of the first two
    answers, that of [OpenProcess] and that of [GetProcessMemoryInfo], which
    gives the value returned, for every identifier, target, operating system
    and world; neither the answer of [CloseHandle] nor anything else enters.
    In a sequence of calls each value is [f] of the answers to that very
    call.  So two calls that received the same two answers return the same
    value. *)
Theorem result_is_a_function_of_the_two_answers :
  (exists f : list Response -> int,
     (forall (W : Type) (os : Win32API W) (target : Target) (pid : DWORD)
             (w : W),
         result (run (get_memory_usage target pid) w)
           = f (firstn 2 (map response
                              (trace (run (get_memory_usage target pid) w)))))
     /\ (forall (W : Type) (os : Win32API W) (target : Target)
                (pids : list DWORD) (w : W),
           result (run (invoke_each target pids) w)
             = map (fun piece => f (firstn 2 (map response piece)))
                   (per_call (trace (run (invoke_each target pids) w)))))
  /\ (forall (W1 W2 : Type) (os1 : Win32API W1) (os2 : Win32API W2)
             (target : Target) (pid : DWORD) (w1 : W1) (w2 : W2),
         firstn 2 (map response (trace (run (get_memory_usage target pid) w1)))
           = firstn 2 (map response
                           (trace (run (get_memory_usage target pid) w2))) ->
         result (run (get_memory_usage target pid) w1)
           = result (run (get_memory_usage target pid) w2)).
Proof.
  set (f := fun rs : list Response =>
              match rs with
              | RHandle _ :: RCounters ok pmc :: _ =>
                  if negb (ok =? 0) then int_of_SIZE_T (WorkingSetSize pmc)
                  else -1
              | _ => -1
              end).
  assert (Hone :
    forall (W : Type) (os : Win32API W) (target : Target) (pid : DWORD)
           (w : W),
      result (run (get_memory_usage target pid) w)
        = f (firstn 2 (map response
                           (trace (run (get_memory_usage target pid) w))))).
  { intros W os target pid w.
    destruct (run_path target pid w)
      as [h w1 _ _ | h w1 ok pmc w2 c w3 _ _ _ Hok _
          | h w1 ok pmc w2 c w3 _ _ _ Hok _];
      cbn [result trace map response firstn f]; [reflexivity | |].
    - subst ok. reflexivity.
    - apply Z.eqb_neq in Hok. now rewrite Hok. }
  split; [exists f; split; [exact Hone|] |].
  - intros W os target pids. induction pids as [| p rest IH]; intros w.
    + reflexivity.
    + rewrite per_call_sequence. cbn [map].
      rewrite run_invoke_each_cons. cbn [result].
      now rewrite <- IH, <- Hone.
  - intros W1 W2 os1 os2 target pid w1 w2 Heq.
    now rewrite (Hone W1), (Hone W2), Heq.
Qed.

(** ** Instances for the sentinel and the dependence of the result *)


Lemma result_is_a_function_of_the_two_answers_witness :
  firstn 2 (map response
                (trace (run (get_memory_usage Win64 1234) (running 8192))))
    = firstn 2 (map response
                    (trace (run (get_memory_usage Win64 1234)
                                {| open_answer := 420;
                                   query_answer := (TRUE, counters 8192);
                                   close_answer := FALSE |})))
  /\ result (run (get_memory_usage Win64 1234) (running 8192))
       = result (run (get_memory_usage Win64 1234)
                     {| open_answer := 420;
                        query_answer := (TRUE, counters 8192);
                        close_answer := FALSE |}).
Proof.
  split; [reflexivity|].
  exact (proj2 result_is_a_function_of_the_two_answers
           Script Script scripted scripted Win64 1234 (running 8192)
           {| open_answer := 420; query_answer := (TRUE, counters 8192);
              close_answer := FALSE |} eq_refl).
Defined.

Lemma pid_goes_to_OpenProcess_unchecked_witness :
  fst (os_OpenProcess QUERY_ACCESS FALSE 0 (running 8192)) <> NULL
  /\ nth_error (trace (run (get_memory_usage Win64 0) (running 8192))) 1
       = Some (EvGetProcessMemoryInfo 420 72 TRUE (counters 8192))
  /\ (fst (os_OpenProcess QUERY_ACCESS FALSE 4294967295 inaccessible) = NULL
      -> result (run (get_memory_usage Win64 4294967295) inaccessible) = -1).
Proof.
  assert (Hgranted :
    fst (os_OpenProcess QUERY_ACCESS FALSE 0 (running 8192)) <> NULL)
    by discriminate.
  split; [exact Hgranted | split].
  - exact (proj2 (proj2 (proj2
             (proj2 (pid_goes_to_OpenProcess_unchecked Win64)
                    0 (running 8192)))) Hgranted).
  - exact (proj1 (proj2 (proj2
             (proj2 (pid_goes_to_OpenProcess_unchecked Win64)
                    4294967295 inaccessible)))).
Defined.
